(** * records-to-docx: a shallow embedding of [main.py]

    Python strings are modelled as lists of Unicode code points ([list Z]).
    Character classes follow CPython: [str.strip] and the regular
    expression class [\s] both use [Py_UNICODE_ISSPACE], whose table is
    finite and written out below; [\w] is [str.isalnum] plus the underscore,
    where [isalnum] is the Unicode database predicate, kept as a section
    variable (only its agreement with ASCII on ASCII code points is
    assumed where a statement needs it). *)

From Stdlib Require Import List ZArith Bool String Ascii Lia.
Import ListNotations.
Open Scope Z_scope.
Open Scope list_scope.

Definition pystr := list Z.

(** String literals of the source, as code points. *)
Definition str_of (s : string) : pystr :=
  map (fun a => Z.of_nat (nat_of_ascii a)) (list_ascii_of_string s).

Definition str_eqb (a b : pystr) : bool :=
  if list_eq_dec Z.eq_dec a b then true else false.

(** [Py_UNICODE_ISSPACE]: used by [str.strip()] and by [\s] in [re]. *)
Definition py_isspace (c : Z) : bool :=
  ((9 <=? c) && (c <=? 13)) || ((28 <=? c) && (c <=? 31)) || (c =? 32)
  || (c =? 133) || (c =? 160) || (c =? 5760)
  || ((8192 <=? c) && (c <=? 8202)) || (c =? 8232) || (c =? 8233)
  || (c =? 8239) || (c =? 8287) || (c =? 12288).

(** [str.isalnum] restricted to ASCII. *)
Definition ascii_isalnum (c : Z) : bool :=
  ((48 <=? c) && (c <=? 57)) || ((65 <=? c) && (c <=? 90))
  || ((97 <=? c) && (c <=? 122)).

(** [str.strip()] *)
Fixpoint lstrip (s : pystr) : pystr :=
  match s with
  | [] => []
  | c :: t => if py_isspace c then lstrip t else s
  end.

Definition rstrip (s : pystr) : pystr := rev (lstrip (rev s)).

Definition py_strip (s : pystr) : pystr := rstrip (lstrip s).

(** [s[:m]] with Python's slice semantics (negative bounds count from the end). *)
Definition py_slice_to (s : pystr) (m : Z) : pystr :=
  if 0 <=? m then firstn (Z.to_nat m) s
  else firstn (List.length s - Z.to_nat (- m)) s.

(** [a or b] on strings. *)
Definition py_or_str (a b : pystr) : pystr :=
  match a with [] => b | _ => a end.

(** ** Python dictionaries: insertion-ordered association lists.
    [d[k] = v] overwrites in place when [k] is present, appends otherwise. *)
Definition pydict := list (pystr * pystr).

Fixpoint dict_get (k : pystr) (d : pydict) : option pystr :=
  match d with
  | [] => None
  | (k', v) :: d' => if str_eqb k k' then Some v else dict_get k d'
  end.

Fixpoint dict_set (k v : pystr) (d : pydict) : pydict :=
  match d with
  | [] => [(k, v)]
  | (k', v') :: d' =>
      if str_eqb k k' then (k', v) :: d' else (k', v') :: dict_set k v d'
  end.

(** ** Effects: diagnostics, exceptions and [sys.exit] *)
Inductive msg :=
| MTemplateNotFound
| MWarnInvalid (lineno : nat) (line : pystr)
| MKVError
| MNoPairs
| MGenerated (out_path : pystr * pystr)
| MGenError.

Inductive event :=
| EMkdir (dir : pystr)
| EOpenKV                      (** [path.exists()] / [path.open()] on the KV file *)
| ERender (out_path : pystr * pystr)
| EStdout (m : msg)
| EStderr (m : msg).

Inductive exn := FileNotFoundError | KVReadError | OSError | RenderError.

Inductive outcome (A : Type) :=
| Ok (a : A)
| Raise (e : exn)
| Exit (code : Z).
Arguments Ok {A} a.
Arguments Raise {A} e.
Arguments Exit {A} code.

(** A writer monad over the emitted events, with exceptions and exit. *)
Definition M (A : Type) : Type := list event * outcome A.

Definition ret {A} (a : A) : M A := ([], Ok a).
Definition raise {A} (e : exn) : M A := ([], Raise e).
Definition sys_exit {A} (c : Z) : M A := ([], Exit c).
Definition emit (e : event) : M unit := ([e], Ok tt).

Definition bind {A B} (m : M A) (f : A -> M B) : M B :=
  let (w, o) := m in
  match o with
  | Ok a => let (w', o') := f a in (w ++ w', o')
  | Raise e => (w, Raise e)
  | Exit c => (w, Exit c)
  end.

(** [try: m except Exception: h]; [SystemExit] is not caught. *)
Definition try_except {A} (m : M A) (h : exn -> M A) : M A :=
  let (w, o) := m in
  match o with
  | Raise e => let (w', o') := h e in (w ++ w', o')
  | _ => (w, o)
  end.

Notation "x <- m ;; k" := (bind m (fun x => k))
  (at level 61, m at next level, right associativity).
Notation "m ;;; k" := (bind m (fun _ => k))
  (at level 61, right associativity).

(** ** [parse_kv_file] *)

(** Universal newlines of text-mode [open]: ["\r\n"] and ["\r"] become ["\n"]. *)
Fixpoint translate_newlines (s : pystr) : pystr :=
  match s with
  | 13 :: 10 :: t => 10 :: translate_newlines t
  | 13 :: t => 10 :: translate_newlines t
  | c :: t => c :: translate_newlines t
  | [] => []
  end.

(** Iterating a text file: lines keep their ["\n"]; no empty last line. *)
Fixpoint split_lines_acc (cur : pystr) (s : pystr) : list pystr :=
  match s with
  | [] => match cur with [] => [] | _ => [rev cur] end
  | 10 :: t => rev (10 :: cur) :: split_lines_acc [] t
  | c :: t => split_lines_acc (c :: cur) t
  end.

Definition file_lines (text : pystr) : list pystr :=
  split_lines_acc [] (translate_newlines text).

Definition startswith_hash (s : pystr) : bool :=
  match s with 35 :: _ => true | _ => false end.

Definition contains_eq (s : pystr) : bool := existsb (Z.eqb 61) s.

(** [line.split("=", 1)] on a line known to contain ["="]. *)
Fixpoint split_eq (s : pystr) : pystr * pystr :=
  match s with
  | [] => ([], [])
  | c :: t =>
      if c =? 61 then ([], t)
      else let (k, v) := split_eq t in (c :: k, v)
  end.

Definition last_char (s : pystr) : Z := last s 0.

(** [if len(val) >= 2 and val[0] == val[-1] and val[0] in (Q1, Q2): val = val[1:-1]]
    where Q1, Q2 are the single and double quote (code points 39 and 34). *)
Definition strip_quotes (val : pystr) : pystr :=
  match val with
  | q :: _ =>
      if (2 <=? Z.of_nat (List.length val)) && (q =? last_char val)
         && ((q =? 39) || (q =? 34))
      then removelast (tl val) else val
  | [] => val
  end.

(** What the loop body does with one raw line. *)
Inductive line_kind :=
| LSkip
| LInvalid (line : pystr)
| LPair (key val : pystr).

Definition classify_line (raw : pystr) : line_kind :=
  let line := py_strip raw in
  if match line with [] => true | _ => false end || startswith_hash line then LSkip
  else if negb (contains_eq line) then LInvalid line
  else
    let (key, val) := split_eq line in
    LPair (py_strip key) (strip_quotes (py_strip val)).

Fixpoint parse_lines (lineno : nat) (ls : list pystr) (data : pydict) : M pydict :=
  match ls with
  | [] => ret data
  | raw :: ls' =>
      match classify_line raw with
      | LSkip => parse_lines (S lineno) ls' data
      | LInvalid line =>
          emit (EStderr (MWarnInvalid lineno line)) ;;;
          parse_lines (S lineno) ls' data
      | LPair key val => parse_lines (S lineno) ls' (dict_set key val data)
      end
  end.

(** The KV file as the process finds it: absent, or a text whose lines are
    read, possibly followed by a read error (e.g. undecodable UTF-8). *)
Inductive kv_source :=
| KVMissing
| KVFile (text : pystr) (read_error : bool).

Definition parse_kv_file (src : kv_source) : M pydict :=
  emit EOpenKV ;;;
  match src with
  | KVMissing => raise FileNotFoundError
  | KVFile text err =>
      data <- parse_lines 1 (file_lines text) [] ;;
      if err then raise KVReadError else ret data
  end.

Section Unicode.

Variable isalnum : Z -> bool.

(** [\w] for [str] patterns. *)
Definition py_isword (c : Z) : bool := isalnum c || (c =? 95).

(** [re.sub(r"[^\w\s-]", "", s, flags=re.UNICODE)] *)
Definition remove_unsafe (s : pystr) : pystr :=
  filter (fun c => py_isword c || py_isspace c || (c =? 45)) s.

(** Length of the longest whitespace prefix: what [\s+] matches greedily. *)
Fixpoint ws_span (s : pystr) : nat :=
  match s with
  | c :: t => if py_isspace c then S (ws_span t) else O
  | [] => O
  end.

(** [re.sub(r"\s+", "_", s)]: scan left to right; at each position try the
    pattern; on a match emit ["_"] and resume after the match, otherwise
    copy one character. [fuel] bounds the number of steps. *)
Fixpoint sub_ws_aux (fuel : nat) (s : pystr) : pystr :=
  match fuel with
  | O => s
  | S fuel' =>
      match s with
      | [] => []
      | c :: t =>
          match ws_span s with
          | O => c :: sub_ws_aux fuel' t
          | n => 95 :: sub_ws_aux fuel' (skipn n s)
          end
      end
  end.

Definition sub_ws (s : pystr) : pystr := sub_ws_aux (List.length s) s.

(** [safe_filename(s, maxlen=120)]; [None] is Python's [None]. *)
Definition safe_filename (s : option pystr) (maxlen : Z) : pystr :=
  let s := match s with Some x => x | None => [] end in
  let s := py_strip s in
  let s := remove_unsafe s in
  let s := sub_ws s in
  py_or_str (py_slice_to s maxlen) (str_of "output").

(** ** Output name *)

(** Python truthiness of [dict.get] results and of strings. *)
Definition py_truthy (o : option pystr) : bool :=
  match o with Some (_ :: _) => true | _ => false end.

Definition py_or (a b : option pystr) : option pystr :=
  if py_truthy a then a else b.

(** [ctx.get("FIRSTNAME") or ctx.get("name") or ctx.get("Name")
     or ctx.get("FULLNAME") or ctx.get("FULL_NAME") or ""] *)
Definition candidate (ctx : pydict) : option pystr :=
  py_or (dict_get (str_of "FIRSTNAME") ctx)
  (py_or (dict_get (str_of "name") ctx)
  (py_or (dict_get (str_of "Name") ctx)
  (py_or (dict_get (str_of "FULLNAME") ctx)
  (py_or (dict_get (str_of "FULL_NAME") ctx)
  (Some []))))).

Definition out_name (name_arg : option pystr) (ctx : pydict) : pystr :=
  if py_truthy name_arg then match name_arg with Some n => n | None => [] end
  else
    let cand := candidate ctx in
    let base := if py_truthy cand then safe_filename cand 120
                else str_of "document" in
    base ++ str_of ".docx".

(** ** [main] *)

(** The world the process runs in; rendering is the external [docxtpl]. *)
Record env := {
  mkdir_ok : bool;
  tpl_exists : bool;
  kv_src : kv_source;
  render_ok : pydict -> pystr * pystr -> bool
}.

(** Parsed command line ([argparse] itself is not modelled). *)
Record args := {
  arg_kvfile : pystr;
  arg_template : pystr;
  arg_outdir : pystr;
  arg_name : option pystr
}.

Definition generate_doc (e : env) (ctx : pydict) (out_path : pystr * pystr) : M unit :=
  emit (ERender out_path) ;;;
  if render_ok e ctx out_path then ret tt else raise RenderError.

Definition main (e : env) (a : args) : M unit :=
  emit (EMkdir (arg_outdir a)) ;;;
  (if mkdir_ok e then ret tt else raise OSError) ;;;
  (if negb (tpl_exists e)
   then emit (EStderr MTemplateNotFound) ;;; sys_exit 2
   else ret tt) ;;;
  ctx <- try_except (parse_kv_file (kv_src e))
           (fun _ => emit (EStderr MKVError) ;;; sys_exit 3) ;;
  (match ctx with [] => emit (EStderr MNoPairs) | _ => ret tt end) ;;;
  let out_path := (arg_outdir a, out_name (arg_name a) ctx) in
  try_except (generate_doc e ctx out_path ;;; emit (EStdout (MGenerated out_path)))
    (fun _ => emit (EStderr MGenError) ;;; sys_exit 4).

(** Process exit status: implicit 0, [sys.exit(n)], or 1 for an uncaught exception. *)
Definition exit_code (e : env) (a : args) : Z :=
  match snd (main e a) with
  | Ok _ => 0
  | Exit c => c
  | Raise _ => 1
  end.

End Unicode.

(** ** Specification-side definitions (from the spec's words) *)

(** Each maximal run of whitespace becomes one underscore; [in_run] says
    whether the previous character was whitespace. *)
Fixpoint collapse_runs (in_run : bool) (s : pystr) : pystr :=
  match s with
  | [] => []
  | c :: t =>
      if py_isspace c then
        if in_run then collapse_runs true t else 95 :: collapse_runs true t
      else c :: collapse_runs false t
  end.

(** The sanitizer as the spec lists its steps, for a non-negative maximum length. *)
Definition sanitize_spec (isalnum : Z -> bool) (s : option pystr) (maxlen : Z) : pystr :=
  let t := collapse_runs false
             (remove_unsafe isalnum (py_strip (match s with Some x => x | None => [] end))) in
  match firstn (Z.to_nat maxlen) t with
  | [] => str_of "output"
  | r => r
  end.

(** The string the sanitizer truncates: trimmed, filtered, collapsed. *)
Definition collapsed (isalnum : Z -> bool) (s : option pystr) : pystr :=
  sub_ws (remove_unsafe isalnum (py_strip (match s with Some x => x | None => [] end))).

(** [isalnum] agrees with ASCII on ASCII code points, as Unicode's does. *)
Definition ascii_agrees (isalnum : Z -> bool) : Prop :=
  forall c, 0 <= c < 128 -> isalnum c = ascii_isalnum c.

(** The name keys in order of preference, and the first one holding a
    non-empty value. *)
Definition name_keys : list pystr :=
  [str_of "FIRSTNAME"; str_of "name"; str_of "Name"; str_of "FULLNAME"; str_of "FULL_NAME"].

Fixpoint first_nonempty (keys : list pystr) (ctx : pydict) : option pystr :=
  match keys with
  | [] => None
  | k :: ks =>
      match dict_get k ctx with
      | Some (c :: cs) => Some (c :: cs)
      | _ => first_nonempty ks ctx
      end
  end.

Definition all_ascii (s : pystr) : bool :=
  forallb (fun c => (0 <=? c) && (c <? 128)) s.

(** ** Parser: pure form of the loop *)

Fixpoint parse_data (ls : list pystr) (d : pydict) : pydict :=
  match ls with
  | [] => d
  | raw :: ls' =>
      match classify_line raw with
      | LPair k v => parse_data ls' (dict_set k v d)
      | _ => parse_data ls' d
      end
  end.

Fixpoint parse_warnings (n : nat) (ls : list pystr) : list event :=
  match ls with
  | [] => []
  | raw :: ls' =>
      match classify_line raw with
      | LInvalid line => EStderr (MWarnInvalid n line) :: parse_warnings (S n) ls'
      | _ => parse_warnings (S n) ls'
      end
  end.

(** The key/value pairs of the valid lines, in file order. *)
Definition line_pairs (ls : list pystr) : list (pystr * pystr) :=
  flat_map (fun raw => match classify_line raw with LPair k v => [(k, v)] | _ => [] end) ls.

(** ** Concrete inputs used below *)

Definition dq : pystr := [34].

Definition nl : pystr := [10].

Definition example_kv : pystr :=
  str_of "A=1" ++ nl ++ str_of "B=2" ++ nl ++ str_of "# comment" ++ nl ++ nl ++ str_of "C=3".

Definition ctx_empty_first : pydict := [(str_of "FIRSTNAME", [])].
Definition ctx_empty_first_bob : pydict :=
  [(str_of "FIRSTNAME", []); (str_of "name", str_of "Bob")].

(** Writing a text with Windows line endings. *)
Fixpoint to_crlf (s : pystr) : pystr :=
  match s with
  | [] => []
  | c :: t => if c =? 10 then 13 :: 10 :: to_crlf t else c :: to_crlf t
  end.

Definition safe_char (isalnum : Z -> bool) (c : Z) : Prop :=
  py_isspace c = false /\ (py_isword isalnum c || (c =? 45)) = true.

(** ** Sanitizer lemmas *)

Lemma collapse_runs_true (s : pystr) :
  collapse_runs true s = collapse_runs false (skipn (ws_span s) s).
Proof.
  induction s as [|c t IH]; [reflexivity|].
  simpl. destruct (py_isspace c) eqn:Hc; simpl; [exact IH|now rewrite Hc].
Qed.

Lemma sub_ws_aux_collapse (fuel : nat) (s : pystr) :
  (List.length s <= fuel)%nat -> sub_ws_aux fuel s = collapse_runs false s.
Proof.
  revert s. induction fuel as [|fuel IH]; intros s Hlen.
  - destruct s; [reflexivity|simpl in Hlen; lia].
  - destruct s as [|c t]; [reflexivity|].
    simpl in Hlen |- *. destruct (py_isspace c) eqn:Hc.
    + simpl. f_equal. rewrite collapse_runs_true. apply IH.
      rewrite length_skipn. lia.
    + f_equal. apply IH. lia.
Qed.

Lemma sub_ws_collapse (s : pystr) : sub_ws s = collapse_runs false s.
Proof. apply sub_ws_aux_collapse. lia. Qed.

Lemma py_slice_to_nonneg (s : pystr) (m : Z) :
  0 <= m -> py_slice_to s m = firstn (Z.to_nat m) s.
Proof. intros Hm. unfold py_slice_to. now rewrite (proj2 (Z.leb_le 0 m) Hm). Qed.

Lemma py_slice_to_prefix (s : pystr) (m : Z) :
  exists n, py_slice_to s m = firstn n s.
Proof. unfold py_slice_to. destruct (0 <=? m); eexists; reflexivity. Qed.

Lemma remove_unsafe_forall (isalnum : Z -> bool) (s : pystr) :
  Forall (fun c => py_isword isalnum c || py_isspace c || (c =? 45) = true)
    (remove_unsafe isalnum s).
Proof.
  unfold remove_unsafe. apply Forall_forall. intros c Hc.
  now apply filter_In in Hc as [_ Hc].
Qed.

Lemma collapse_runs_forall (isalnum : Z -> bool) (b : bool) (s : pystr) :
  Forall (fun c => py_isword isalnum c || py_isspace c || (c =? 45) = true) s ->
  Forall (fun c => py_isspace c = false /\ (py_isword isalnum c || (c =? 45)) = true)
    (collapse_runs b s).
Proof.
  revert b. induction s as [|c t IH]; intros b Hs; [constructor|].
  inversion Hs as [|? ? Hc Ht]; subst. simpl.
  destruct (py_isspace c) eqn:Hsp.
  - destruct b; [now apply IH|].
    constructor; [|now apply IH].
    unfold py_isword. split; [reflexivity|now rewrite orb_true_r].
  - constructor; [|now apply IH].
    split; [exact Hsp|]. now rewrite orb_false_r in Hc.
Qed.

Lemma output_word (isalnum : Z -> bool) :
  ascii_agrees isalnum ->
  Forall (fun c => py_isspace c = false /\ (py_isword isalnum c || (c =? 45)) = true)
    (str_of "output").
Proof.
  intros H. unfold py_isword. cbn.
  repeat (constructor; [rewrite H by lia; split; reflexivity|]). constructor.
Qed.

Lemma safe_filename_collapsed (isalnum : Z -> bool) (s : option pystr) (maxlen : Z) :
  safe_filename isalnum s maxlen
  = py_or_str (py_slice_to (collapsed isalnum s) maxlen) (str_of "output").
Proof. reflexivity. Qed.

Lemma Forall_firstn {A} (P : A -> Prop) (n : nat) (l : list A) :
  Forall P l -> Forall P (firstn n l).
Proof.
  intros H. rewrite <- (firstn_skipn n l) in H.
  now apply Forall_app in H as [H _].
Qed.

Lemma remove_unsafe_ascii (isalnum : Z -> bool) (s : pystr) :
  ascii_agrees isalnum -> all_ascii s = true ->
  remove_unsafe isalnum s = remove_unsafe ascii_isalnum s.
Proof.
  intros H. unfold remove_unsafe, py_isword.
  induction s as [|c t IH]; intros Hs; [reflexivity|].
  simpl in Hs. apply andb_prop in Hs as [Hc Ht].
  apply andb_prop in Hc as [Hc1 Hc2].
  simpl. rewrite H by lia. now rewrite IH.
Qed.

Lemma safe_filename_ascii (isalnum : Z -> bool) (x : pystr) (maxlen : Z) :
  ascii_agrees isalnum -> all_ascii (py_strip x) = true ->
  safe_filename isalnum (Some x) maxlen = safe_filename ascii_isalnum (Some x) maxlen.
Proof.
  intros H Hx. unfold safe_filename. now rewrite remove_unsafe_ascii.
Qed.

(** ** Claims about [safe_filename] *)

(** C2: for every input (absent input counting as the empty string) and
    every non-negative maximum length, [safe_filename] trims, removes the
    characters outside [\w], [\s] and the hyphen, replaces every maximal
    whitespace run by one underscore, truncates, and falls back to
    ["output"] on an empty result; ["John Doe!!"] gives ["John_Doe"], and
    [""] and [None] give ["output"]. *)
Theorem safe_filename_steps (isalnum : Z -> bool) (Hascii : ascii_agrees isalnum) :
  (forall s maxlen, 0 <= maxlen ->
     safe_filename isalnum s maxlen = sanitize_spec isalnum s maxlen)
  /\ safe_filename isalnum (Some (str_of "John Doe!!")) 120 = str_of "John_Doe"
  /\ safe_filename isalnum (Some (str_of "")) 120 = str_of "output"
  /\ safe_filename isalnum None 120 = str_of "output".
Proof.
  split; [|split; [|split]].
  - intros s maxlen Hm. unfold safe_filename, sanitize_spec.
    rewrite py_slice_to_nonneg by exact Hm. rewrite sub_ws_collapse.
    destruct (firstn _ _); reflexivity.
  - rewrite safe_filename_ascii by (exact Hascii || reflexivity). reflexivity.
  - reflexivity.
  - reflexivity.
Qed.

Lemma safe_filename_steps_witness :
  ascii_agrees ascii_isalnum
  /\ safe_filename ascii_isalnum (Some (str_of "John Doe!!")) 120 = str_of "John_Doe".
Proof.
  assert (H : ascii_agrees ascii_isalnum) by (intros c _; reflexivity).
  split; [exact H|].
  exact (proj1 (proj2 (safe_filename_steps ascii_isalnum H))).
Defined.

(** C5 (counterexample): an input longer than the maximum length need not
    give a result of that length: ["!!"] with maximum length 1 gives
    ["output"], and so does ["ab"] with maximum length 0. *)
Lemma safe_filename_truncation_cex :
  (List.length (str_of "!!") > 1)%nat
  /\ List.length (safe_filename ascii_isalnum (Some (str_of "!!")) 1) <> 1%nat
  /\ (List.length (str_of "ab") > 0)%nat
  /\ List.length (safe_filename ascii_isalnum (Some (str_of "ab")) 0) <> 0%nat.
Proof. vm_compute. repeat split; lia. Qed.

(** C5 (amended): truncation applies to the trimmed, filtered and collapsed
    string and precedes the ["output"] fallback. With maximum length 0 the
    result is always ["output"]; for a non-negative maximum length the
    result is the collapsed string cut to that length, or ["output"] when
    the cut is empty; for a maximum length of at least 1, when the collapsed
    string is longer, the result has exactly the maximum length; when it is
    not longer, the result is the collapsed string itself, or ["output"]
    when that is empty. *)
Theorem safe_filename_truncation (isalnum : Z -> bool) (s : option pystr) :
  safe_filename isalnum s 0 = str_of "output"
  /\ (forall maxlen, 0 <= maxlen ->
        safe_filename isalnum s maxlen
        = match firstn (Z.to_nat maxlen) (collapsed isalnum s) with
          | [] => str_of "output"
          | r => r
          end)
  /\ (forall maxlen, 1 <= maxlen ->
        maxlen < Z.of_nat (List.length (collapsed isalnum s)) ->
        List.length (safe_filename isalnum s maxlen) = Z.to_nat maxlen)
  /\ (forall maxlen, 0 <= maxlen ->
        Z.of_nat (List.length (collapsed isalnum s)) <= maxlen ->
        (collapsed isalnum s <> [] /\ safe_filename isalnum s maxlen = collapsed isalnum s)
        \/ (collapsed isalnum s = [] /\ safe_filename isalnum s maxlen = str_of "output")).
Proof.
  split; [|split; [|split]].
  - rewrite safe_filename_collapsed, py_slice_to_nonneg by lia. reflexivity.
  - intros maxlen Hm. rewrite safe_filename_collapsed, py_slice_to_nonneg by exact Hm.
    destruct (firstn _ _); reflexivity.
  - intros maxlen H1 H2.
    rewrite safe_filename_collapsed, py_slice_to_nonneg by lia.
    destruct (collapsed isalnum s) as [|c t] eqn:Hc; [simpl in H2; lia|].
    destruct (Z.to_nat maxlen) as [|n] eqn:Hn; [lia|].
    simpl. rewrite length_firstn. simpl in H2. lia.
  - intros maxlen Hm Hle.
    rewrite safe_filename_collapsed, py_slice_to_nonneg by exact Hm.
    rewrite firstn_all2 by lia.
    destruct (collapsed isalnum s) as [|c t].
    + right. split; reflexivity.
    + left. split; [discriminate|reflexivity].
Qed.

Lemma safe_filename_truncation_witness :
  List.length (safe_filename ascii_isalnum (Some (str_of "a b c")) 2) = 2%nat.
Proof.
  exact (proj1 (proj2 (proj2 (safe_filename_truncation ascii_isalnum (Some (str_of "a b c")))))
           2 ltac:(lia) ltac:(vm_compute; reflexivity)).
Defined.

(** C10: for every input and every maximum length (Python slicing included),
    the result is non-empty, contains no whitespace, and every character is
    a word character or a hyphen. *)
Theorem safe_filename_charset (isalnum : Z -> bool) (Hascii : ascii_agrees isalnum)
    (s : option pystr) (maxlen : Z) :
  safe_filename isalnum s maxlen <> []
  /\ Forall (fun c => py_isspace c = false /\ (py_isword isalnum c || (c =? 45)) = true)
       (safe_filename isalnum s maxlen).
Proof.
  rewrite safe_filename_collapsed.
  destruct (py_slice_to_prefix (collapsed isalnum s) maxlen) as [n Hn]. rewrite Hn.
  assert (Hall : Forall (fun c => py_isspace c = false
                          /\ (py_isword isalnum c || (c =? 45)) = true)
                   (firstn n (collapsed isalnum s))).
  { apply Forall_firstn. unfold collapsed. rewrite sub_ws_collapse.
    apply collapse_runs_forall, remove_unsafe_forall. }
  destruct (firstn n (collapsed isalnum s)) as [|c t] eqn:Hf; simpl.
  - split; [discriminate|]. now apply output_word.
  - split; [discriminate|exact Hall].
Qed.

Lemma safe_filename_charset_witness :
  safe_filename ascii_isalnum (Some (str_of "  ")) (-3) <> [].
Proof.
  exact (proj1 (safe_filename_charset ascii_isalnum (fun c _ => eq_refl)
                  (Some (str_of "  ")) (-3))).
Defined.

Lemma parse_lines_eq (n : nat) (ls : list pystr) (d : pydict) :
  parse_lines n ls d = (parse_warnings n ls, Ok (parse_data ls d)).
Proof.
  revert n d. induction ls as [|raw ls IH]; intros n d; [reflexivity|].
  simpl. destruct (classify_line raw); rewrite ?IH; reflexivity.
Qed.

Lemma parse_data_app (l1 l2 : list pystr) (d : pydict) :
  parse_data (l1 ++ l2) d = parse_data l2 (parse_data l1 d).
Proof.
  revert d. induction l1 as [|raw l1 IH]; intros d; [reflexivity|].
  simpl. destruct (classify_line raw); apply IH.
Qed.

Lemma parse_warnings_app (n : nat) (l1 l2 : list pystr) :
  parse_warnings n (l1 ++ l2) = parse_warnings n l1 ++ parse_warnings (n + List.length l1) l2.
Proof.
  revert n. induction l1 as [|raw l1 IH]; intros n; simpl.
  - now rewrite Nat.add_0_r.
  - rewrite Nat.add_succ_r. destruct (classify_line raw); rewrite IH; reflexivity.
Qed.

Lemma parse_data_fold (ls : list pystr) (d : pydict) :
  parse_data ls d = fold_left (fun acc kv => dict_set (fst kv) (snd kv) acc) (line_pairs ls) d.
Proof.
  revert d. induction ls as [|raw ls IH]; intros d; [reflexivity|].
  unfold line_pairs. simpl. destruct (classify_line raw); apply IH.
Qed.

Lemma str_eqb_spec (a b : pystr) : str_eqb a b = true <-> a = b.
Proof. unfold str_eqb. destruct (list_eq_dec Z.eq_dec a b); split; congruence. Qed.

Lemma dict_get_set (k k' v : pystr) (d : pydict) :
  dict_get k (dict_set k' v d) = if str_eqb k k' then Some v else dict_get k d.
Proof.
  induction d as [|[k0 v0] d IH]; simpl; [reflexivity|].
  destruct (str_eqb k' k0) eqn:E1.
  - apply str_eqb_spec in E1. subst. simpl. destruct (str_eqb k k0); reflexivity.
  - simpl. rewrite IH. destruct (str_eqb k k0) eqn:E2; [|reflexivity].
    apply str_eqb_spec in E2. subst.
    destruct (str_eqb k0 k') eqn:E3; [|reflexivity].
    apply str_eqb_spec in E3. subst. unfold str_eqb in E1.
    destruct (list_eq_dec Z.eq_dec k' k'); congruence.
Qed.

Lemma str_eqb_refl (a : pystr) : str_eqb a a = true.
Proof. now apply str_eqb_spec. Qed.

Lemma dict_get_fold_other (k : pystr) (ps : list (pystr * pystr)) (d : pydict) :
  ~ In k (map fst ps) ->
  dict_get k (fold_left (fun acc kv => dict_set (fst kv) (snd kv) acc) ps d) = dict_get k d.
Proof.
  revert d. induction ps as [|[k' v'] ps IH]; intros d Hk; [reflexivity|].
  simpl in *. rewrite IH by tauto. rewrite dict_get_set.
  destruct (str_eqb k k') eqn:E; [|reflexivity].
  apply str_eqb_spec in E. subst. tauto.
Qed.

Lemma split_eq_app (before after : pystr) :
  ~ In 61 before -> split_eq (before ++ 61 :: after) = (before, after).
Proof.
  induction before as [|c t IH]; intros H; [reflexivity|].
  simpl. destruct (Z.eqb_spec c 61) as [E|E].
  - subst. exfalso. apply H. now left.
  - rewrite IH by (intros Hin; apply H; now right). reflexivity.
Qed.

Lemma strip_quotes_quoted (q : Z) (mid : pystr) :
  q = 34 \/ q = 39 -> strip_quotes (q :: mid ++ [q]) = mid.
Proof.
  intros Hq. unfold strip_quotes, last_char.
  assert (Hl : last (q :: mid ++ [q]) 0 = q) by exact (last_last (q :: mid) q 0).
  rewrite Hl, Z.eqb_refl.
  assert (Hlen : (2 <=? Z.of_nat (List.length (q :: mid ++ [q]))) = true).
  { apply Z.leb_le. simpl. rewrite length_app. simpl. lia. }
  rewrite Hlen. simpl.
  destruct Hq as [-> | ->]; simpl; apply removelast_last.
Qed.

Lemma strip_quotes_cases (t : pystr) :
  strip_quotes t = t
  \/ exists q mid, t = q :: mid ++ [q] /\ (q = 34 \/ q = 39) /\ strip_quotes t = mid.
Proof.
  destruct t as [|q rest]; [now left|].
  unfold strip_quotes, last_char.
  destruct ((2 <=? Z.of_nat (List.length (q :: rest))) && (q =? last (q :: rest) 0)
            && ((q =? 39) || (q =? 34))) eqn:E; [|now left].
  right. apply andb_prop in E as [E Hq]. apply andb_prop in E as [Hlen Hlast].
  apply Z.leb_le in Hlen. apply Z.eqb_eq in Hlast.
  destruct rest as [|r rest']; [simpl in Hlen; lia|].
  exists q, (removelast (r :: rest')). split; [|split].
  - f_equal. rewrite Hlast at 1.
    change (last (q :: r :: rest') 0) with (last (r :: rest') 0).
    apply app_removelast_last. discriminate.
  - apply orb_prop in Hq as [Hq|Hq]; apply Z.eqb_eq in Hq; auto.
  - reflexivity.
Qed.

Lemma classify_invalid (raw : pystr) :
  py_strip raw <> [] -> startswith_hash (py_strip raw) = false -> ~ In 61 (py_strip raw) ->
  classify_line raw = LInvalid (py_strip raw).
Proof.
  intros Hne Hh Heq. unfold classify_line.
  destruct (py_strip raw) as [|c t] eqn:E; [congruence|]. rewrite Hh. simpl orb.
  assert (Hc : contains_eq (c :: t) = false).
  { unfold contains_eq. apply not_true_iff_false. intros Hx.
    apply existsb_exists in Hx as [x [Hx Hx']]. apply Z.eqb_eq in Hx'. subst. tauto. }
  now rewrite Hc.
Qed.

Lemma classify_skip (raw : pystr) :
  py_strip raw = [] \/ startswith_hash (py_strip raw) = true -> classify_line raw = LSkip.
Proof.
  intros [H|H]; unfold classify_line; rewrite H; [reflexivity|].
  now rewrite orb_true_r.
Qed.

(** ** Claims about [parse_kv_file] *)

(** C3: a line that is not blank, not a comment and contains ["="] maps the
    trimmed text before the first ["="] to the trimmed text after it, from
    which one outer pair of matching single or double quotes is removed when
    present (the value then has at least 2 characters); [KEY="quoted value"]
    gives [quoted value] and [KEY='x'] gives [x]. *)
Theorem classify_pair_line (raw before after : pystr)
    (Hline : py_strip raw = before ++ 61 :: after) (Hfirst : ~ In 61 before)
    (Hcomment : startswith_hash (py_strip raw) = false) :
  (exists v, classify_line raw = LPair (py_strip before) v
     /\ (forall q mid, py_strip after = q :: mid ++ [q] -> q = 34 \/ q = 39 -> v = mid)
     /\ ((~ exists q mid, py_strip after = q :: mid ++ [q] /\ (q = 34 \/ q = 39)) ->
         v = py_strip after))
  /\ classify_line (str_of "KEY=" ++ dq ++ str_of "quoted value" ++ dq)
     = LPair (str_of "KEY") (str_of "quoted value")
  /\ classify_line (str_of "KEY='x'") = LPair (str_of "KEY") (str_of "x").
Proof.
  split; [|split; reflexivity].
  exists (strip_quotes (py_strip after)).
  split; [|split].
  - unfold classify_line. rewrite Hline in *. rewrite Hcomment.
    assert (Hnil : match before ++ 61 :: after with [] => true | _ => false end = false)
      by (destruct before; reflexivity).
    assert (Hce : contains_eq (before ++ 61 :: after) = true).
    { unfold contains_eq. rewrite existsb_app. simpl. now rewrite orb_true_r. }
    rewrite Hnil, Hce, split_eq_app by exact Hfirst. reflexivity.
  - intros q mid Ha Hq. rewrite Ha. now apply strip_quotes_quoted.
  - intros Hnot. destruct (strip_quotes_cases (py_strip after)) as [H|[q [mid [Ha [Hq _]]]]];
      [exact H|].
    exfalso. apply Hnot. now exists q, mid.
Qed.

Lemma classify_pair_line_witness :
  exists v, classify_line (str_of " KEY = 'a' ") = LPair (str_of "KEY") v.
Proof.
  destruct (proj1 (classify_pair_line (str_of " KEY = 'a' ") (str_of "KEY ") (str_of " 'a'")
             eq_refl ltac:(simpl; lia) eq_refl)) as [v [Hv _]].
  exists v. exact Hv.
Defined.

(** C6: parsing ["A=1\nB=2\n# comment\n\nC=3"] yields exactly
    [{A: "1", B: "2", C: "3"}] with no diagnostics; in general a blank or
    comment line contributes no entry. *)
Theorem parse_example_and_skips :
  parse_kv_file (KVFile example_kv false)
  = ([EOpenKV], Ok [(str_of "A", str_of "1"); (str_of "B", str_of "2"); (str_of "C", str_of "3")])
  /\ forall n pre raw post d,
       py_strip raw = [] \/ startswith_hash (py_strip raw) = true ->
       snd (parse_lines n (pre ++ raw :: post) d) = snd (parse_lines n (pre ++ post) d)
       /\ parse_warnings (n + List.length pre) [raw] = [].
Proof.
  split; [vm_compute; reflexivity|].
  intros n pre raw post d Hskip.
  rewrite !parse_lines_eq. simpl snd.
  rewrite !parse_data_app. simpl. rewrite (classify_skip raw Hskip). split; reflexivity.
Qed.

(** C7: a non-blank, non-comment line without ["="] yields a warning on the
    diagnostic stream, parsing still succeeds, and the resulting mapping is
    the one obtained without that line. *)
Theorem parse_invalid_line (n : nat) (pre : list pystr) (raw : pystr) (post : list pystr)
    (d : pydict)
    (Hne : py_strip raw <> []) (Hnohash : startswith_hash (py_strip raw) = false)
    (Hnoeq : ~ In 61 (py_strip raw)) :
  In (EStderr (MWarnInvalid (n + List.length pre) (py_strip raw)))
     (fst (parse_lines n (pre ++ raw :: post) d))
  /\ snd (parse_lines n (pre ++ raw :: post) d) = Ok (parse_data (pre ++ post) d)
  /\ snd (parse_lines n (pre ++ raw :: post) d) = snd (parse_lines n (pre ++ post) d).
Proof.
  pose proof (classify_invalid raw Hne Hnohash Hnoeq) as Hc.
  rewrite !parse_lines_eq. simpl fst; simpl snd.
  rewrite parse_warnings_app, !parse_data_app. simpl. rewrite Hc. simpl.
  split; [|split; reflexivity].
  apply in_or_app. right. now left.
Qed.

Lemma parse_invalid_line_witness :
  snd (parse_lines 1 [str_of "junk"; str_of "A=1"] [])
  = snd (parse_lines 1 [str_of "A=1"] []).
Proof.
  exact (proj2 (proj2 (parse_invalid_line 1 [] (str_of "junk") [str_of "A=1"] []
           ltac:(discriminate) eq_refl ltac:(simpl; lia)))).
Defined.

(** C8: duplicate keys are not an error: parsing succeeds, and a key gets
    the value of the last valid line that carries it; keys are compared as
    exact code-point sequences, so [Key] and [KEY] stay apart. *)
Theorem parse_last_wins (n : nat) (ls : list pystr) (k v : pystr)
    (pre post : list (pystr * pystr))
    (Hpairs : line_pairs ls = pre ++ (k, v) :: post) (Hlast : ~ In k (map fst post)) :
  snd (parse_lines n ls []) = Ok (parse_data ls [])
  /\ dict_get k (parse_data ls []) = Some v
  /\ parse_data [str_of "Key=a"; str_of "KEY=b"; str_of "Key=c"] []
     = [(str_of "Key", str_of "c"); (str_of "KEY", str_of "b")].
Proof.
  split; [now rewrite parse_lines_eq|split; [|reflexivity]].
  rewrite parse_data_fold, Hpairs, fold_left_app. simpl.
  rewrite dict_get_fold_other by exact Hlast.
  rewrite dict_get_set, str_eqb_refl. reflexivity.
Qed.

Lemma parse_last_wins_witness :
  dict_get (str_of "A") (parse_data [str_of "A=1"; str_of "B=2"; str_of "A=3"] [])
  = Some (str_of "3").
Proof.
  exact (proj1 (proj2 (parse_last_wins 1 [str_of "A=1"; str_of "B=2"; str_of "A=3"]
           (str_of "A") (str_of "3")
           [(str_of "A", str_of "1"); (str_of "B", str_of "2")] []
           eq_refl ltac:(simpl; tauto)))).
Defined.

(** C9: a line whose trimmed form starts with ["="] is accepted with the
    empty key and the trimmed, unquoted text after the ["="] as value, and
    no warning is emitted for it. *)
Theorem parse_empty_key (raw rest : pystr) (Hline : py_strip raw = 61 :: rest) :
  classify_line raw = LPair [] (strip_quotes (py_strip rest))
  /\ forall n d, parse_lines n [raw] d = ([], Ok (dict_set [] (strip_quotes (py_strip rest)) d)).
Proof.
  assert (Hc : classify_line raw = LPair [] (strip_quotes (py_strip rest))).
  { unfold classify_line. rewrite Hline. reflexivity. }
  split; [exact Hc|].
  intros n d. simpl. rewrite Hc. reflexivity.
Qed.

Lemma parse_empty_key_witness :
  classify_line (str_of " = 'v' ") = LPair [] (str_of "v").
Proof.
  exact (proj1 (parse_empty_key (str_of " = 'v' ") (str_of " 'v'") eq_refl)).
Defined.

(** ** Claims about [main] *)

(** C1 (counterexample): a candidate key that is present with an empty
    value is passed over. With [FIRSTNAME=""] alone the name is
    ["document.docx"] although the key exists, and with [FIRSTNAME=""] and
    [name="Bob"] the name comes from [name], not from [FIRSTNAME]. *)
Lemma out_name_policy_cex :
  dict_get (str_of "FIRSTNAME") ctx_empty_first <> None
  /\ out_name ascii_isalnum None ctx_empty_first = str_of "document.docx"
  /\ out_name ascii_isalnum None ctx_empty_first_bob = str_of "Bob.docx"
  /\ out_name ascii_isalnum None ctx_empty_first_bob
     <> safe_filename ascii_isalnum (Some []) 120 ++ str_of ".docx".
Proof. vm_compute. repeat split; discriminate. Qed.

(** C1 (amended): without an explicit name, the output name is the
    sanitized value of the first of [FIRSTNAME], [name], [Name], [FULLNAME],
    [FULL_NAME] whose value is present and non-empty, followed by [.docx];
    the base ["document"] is used exactly when none of these keys holds a
    non-empty value. [LASTNAME=Smith] alone gives ["document.docx"],
    [FIRSTNAME=Anna] gives ["Anna.docx"]. *)
Theorem out_name_policy (isalnum : Z -> bool) (Hascii : ascii_agrees isalnum) :
  (forall ctx, out_name isalnum None ctx
     = match first_nonempty name_keys ctx with
       | Some v => safe_filename isalnum (Some v) 120 ++ str_of ".docx"
       | None => str_of "document.docx"
       end)
  /\ out_name isalnum None [(str_of "LASTNAME", str_of "Smith")] = str_of "document.docx"
  /\ out_name isalnum None [(str_of "FIRSTNAME", str_of "Anna")] = str_of "Anna.docx".
Proof.
  assert (Hgen : forall ctx, out_name isalnum None ctx
     = match first_nonempty name_keys ctx with
       | Some v => safe_filename isalnum (Some v) 120 ++ str_of ".docx"
       | None => str_of "document.docx"
       end).
  { intros ctx. unfold out_name, candidate, py_or, name_keys. simpl py_truthy at 1.
    cbv iota beta.
    unfold first_nonempty.
    destruct (dict_get (str_of "FIRSTNAME") ctx) as [[|? ?]|]; [| reflexivity |];
    (destruct (dict_get (str_of "name") ctx) as [[|? ?]|]; [| reflexivity |]);
    (destruct (dict_get (str_of "Name") ctx) as [[|? ?]|]; [| reflexivity |]);
    (destruct (dict_get (str_of "FULLNAME") ctx) as [[|? ?]|]; [| reflexivity |]);
    (destruct (dict_get (str_of "FULL_NAME") ctx) as [[|? ?]|]; reflexivity). }
  split; [exact Hgen|split].
  - rewrite Hgen. reflexivity.
  - rewrite Hgen.
    change (first_nonempty name_keys [(str_of "FIRSTNAME", str_of "Anna")])
      with (Some (str_of "Anna")).
    cbv beta iota.
    rewrite safe_filename_ascii by (exact Hascii || reflexivity). reflexivity.
Qed.

Lemma out_name_policy_witness :
  out_name ascii_isalnum None [(str_of "FIRSTNAME", str_of "Anna")] = str_of "Anna.docx".
Proof.
  exact (proj2 (proj2 (out_name_policy ascii_isalnum (fun c _ => eq_refl)))).
Defined.

(** C4: the three fatal errors exit with the distinct non-zero codes 2
    (missing template), 3 (KV file missing, the not-found error of
    [parse_kv_file], or unreadable) and 4 (rendering failed); the template
    check comes first, so with the template missing the KV file is never
    touched. The output directory is created before all of this. *)
Theorem main_exit_codes (isalnum : Z -> bool) (e : env) (a : args) :
  parse_kv_file KVMissing = ([EOpenKV], Raise FileNotFoundError)
  /\ (mkdir_ok e = true -> tpl_exists e = false ->
      exit_code isalnum e a = 2 /\ ~ In EOpenKV (fst (main isalnum e a)))
  /\ (mkdir_ok e = true -> tpl_exists e = true -> kv_src e = KVMissing ->
      exit_code isalnum e a = 3)
  /\ (forall text, mkdir_ok e = true -> tpl_exists e = true ->
      kv_src e = KVFile text true -> exit_code isalnum e a = 3)
  /\ (forall text, mkdir_ok e = true -> tpl_exists e = true ->
      kv_src e = KVFile text false ->
      let ctx := parse_data (file_lines text) [] in
      render_ok e ctx (arg_outdir a, out_name isalnum (arg_name a) ctx) = false ->
      exit_code isalnum e a = 4)
  /\ 2 <> 0 /\ 3 <> 0 /\ 4 <> 0 /\ 2 <> 3 /\ 3 <> 4 /\ 2 <> 4.
Proof.
  destruct e as [mk tpl kv r]. simpl.
  split; [reflexivity|]. split; [|split; [|split; [|split]]].
  - intros -> ->. split; [reflexivity|]. simpl. intuition discriminate.
  - intros -> -> ->. reflexivity.
  - intros text -> -> ->. unfold exit_code, main, parse_kv_file. simpl.
    rewrite parse_lines_eq. simpl.
    destruct (parse_warnings 1 (file_lines text)); reflexivity.
  - intros text -> -> -> Hr. unfold exit_code, main, parse_kv_file. simpl.
    rewrite parse_lines_eq. simpl.
    destruct (parse_warnings 1 (file_lines text)) as [|w ws];
    destruct (parse_data (file_lines text) []) as [|p ps] eqn:Hd;
    simpl in Hr |- *; unfold generate_doc; simpl; rewrite Hr; reflexivity.
  - repeat split; discriminate.
Qed.

(** * Further properties of [main.py] *)

(** ** Line reading *)

Ltac zlit_cases c :=
  destruct c as [|p|p]; try reflexivity;
  repeat (destruct p as [p|p|]; try reflexivity).

Lemma translate_newlines_cons (c : Z) (t : pystr) :
  c <> 13 -> translate_newlines (c :: t) = c :: translate_newlines t.
Proof. intros H. zlit_cases c. exfalso. now apply H. Qed.

Lemma split_lines_acc_cons (cur : pystr) (c : Z) (t : pystr) :
  c <> 10 -> split_lines_acc cur (c :: t) = split_lines_acc (c :: cur) t.
Proof. intros H. zlit_cases c. exfalso. now apply H. Qed.

Lemma translate_newlines_id (s : pystr) :
  ~ In 13 s -> translate_newlines s = s.
Proof.
  induction s as [|c t IH]; intros H; [reflexivity|].
  rewrite translate_newlines_cons by (intros ->; apply H; now left).
  f_equal. apply IH. intros Hin. apply H. now right.
Qed.

Lemma translate_newlines_crlf (s : pystr) :
  ~ In 13 s -> translate_newlines (to_crlf s) = s.
Proof.
  induction s as [|c t IH]; intros H; [reflexivity|].
  assert (Ht : ~ In 13 t) by (intros Hin; apply H; now right).
  simpl to_crlf. destruct (Z.eqb_spec c 10) as [->|Hc].
  - simpl. f_equal. now apply IH.
  - rewrite translate_newlines_cons by (intros ->; apply H; now left).
    f_equal. now apply IH.
Qed.

Lemma split_lines_acc_concat (cur s : pystr) :
  List.concat (split_lines_acc cur s) = rev cur ++ s.
Proof.
  revert cur. induction s as [|c t IH]; intros cur.
  - simpl. destruct cur; simpl; now rewrite ?app_nil_r.
  - destruct (Z.eq_dec c 10) as [->|Hc].
    + simpl. rewrite IH. simpl. now rewrite <- app_assoc.
    + rewrite split_lines_acc_cons by exact Hc. rewrite IH. simpl.
      now rewrite <- app_assoc.
Qed.

(** X1: a file written with CRLF line endings is read as the same lines,
    hence parsed to the same mapping with the same warnings, as the file
    with LF endings. *)
Theorem crlf_same_parse (text : pystr) (err : bool) (Hnocr : ~ In 13 text) :
  file_lines (to_crlf text) = file_lines text
  /\ parse_kv_file (KVFile (to_crlf text) err) = parse_kv_file (KVFile text err).
Proof.
  assert (H : file_lines (to_crlf text) = file_lines text).
  { unfold file_lines. now rewrite translate_newlines_crlf, translate_newlines_id. }
  split; [exact H|]. unfold parse_kv_file. now rewrite H.
Qed.

Lemma crlf_same_parse_witness :
  file_lines (to_crlf (str_of "A=1" ++ nl ++ str_of "B=2")) = file_lines (str_of "A=1" ++ nl ++ str_of "B=2").
Proof.
  exact (proj1 (crlf_same_parse (str_of "A=1" ++ nl ++ str_of "B=2") false
                  ltac:(simpl; intuition discriminate))).
Defined.

(** X2: reading the lines loses nothing: the lines, concatenated, are the
    file text after newline translation. *)
Theorem file_lines_concat (text : pystr) :
  List.concat (file_lines text) = translate_newlines text.
Proof. unfold file_lines. now rewrite split_lines_acc_concat. Qed.

(** ** Parser invariants *)

Lemma in_parse_warnings (n k : nat) (line : pystr) (ls : list pystr) :
  In (EStderr (MWarnInvalid k line)) (parse_warnings n ls)
  <-> (n <= k)%nat /\ exists raw, nth_error ls (k - n) = Some raw
                                /\ classify_line raw = LInvalid line.
Proof.
  revert n. induction ls as [|raw ls IH]; intros n.
  - simpl. split; [tauto|]. intros [_ [raw [H _]]]. now destruct (k - n)%nat.
  - simpl. destruct (classify_line raw) as [|l|kk vv] eqn:Hc.
    + rewrite IH. split.
      * intros [Hle [r [Hr Hcr]]]. split; [lia|]. exists r.
        replace (k - n)%nat with (S (k - S n)) by lia. auto.
      * intros [Hle [r [Hr Hcr]]].
        destruct (Nat.eq_dec k n) as [->|Hne].
        { rewrite Nat.sub_diag in Hr. simpl in Hr. congruence. }
        split; [lia|]. exists r. replace (k - n)%nat with (S (k - S n)) in Hr by lia. auto.
    + simpl. rewrite IH. split.
      * intros [H|[Hle [r [Hr Hcr]]]].
        { inversion H; subst. split; [lia|]. exists raw.
          rewrite Nat.sub_diag. auto. }
        split; [lia|]. exists r. replace (k - n)%nat with (S (k - S n)) by lia. auto.
      * intros [Hle [r [Hr Hcr]]].
        destruct (Nat.eq_dec k n) as [->|Hne].
        { left. rewrite Nat.sub_diag in Hr. simpl in Hr. congruence. }
        right. split; [lia|]. exists r.
        replace (k - n)%nat with (S (k - S n)) in Hr by lia. auto.
    + rewrite IH. split.
      * intros [Hle [r [Hr Hcr]]]. split; [lia|]. exists r.
        replace (k - n)%nat with (S (k - S n)) by lia. auto.
      * intros [Hle [r [Hr Hcr]]].
        destruct (Nat.eq_dec k n) as [->|Hne].
        { rewrite Nat.sub_diag in Hr. simpl in Hr. congruence. }
        split; [lia|]. exists r. replace (k - n)%nat with (S (k - S n)) in Hr by lia. auto.
Qed.

(** X3: the diagnostics of [parse_kv_file] on a readable file are exactly
    one warning per invalid line, carrying its 1-based line number and its
    trimmed text, in file order after the opening of the file. *)
Theorem parse_kv_warnings (text : pystr) (k : nat) (line : pystr) :
  fst (parse_kv_file (KVFile text false)) = EOpenKV :: parse_warnings 1 (file_lines text)
  /\ (In (EStderr (MWarnInvalid k line)) (fst (parse_kv_file (KVFile text false)))
      <-> (1 <= k)%nat /\ exists raw, nth_error (file_lines text) (k - 1) = Some raw
                                   /\ classify_line raw = LInvalid line).
Proof.
  assert (H : fst (parse_kv_file (KVFile text false))
              = EOpenKV :: parse_warnings 1 (file_lines text)).
  { unfold parse_kv_file. simpl. rewrite parse_lines_eq. simpl. now rewrite app_nil_r. }
  split; [exact H|]. rewrite H. simpl. rewrite in_parse_warnings.
  split; [intros [Hx|Hx]; [discriminate|exact Hx]|intros Hx; now right].
Qed.

Lemma dict_set_keys (k v : pystr) (d : pydict) :
  map fst (dict_set k v d) = if in_dec (list_eq_dec Z.eq_dec) k (map fst d)
                             then map fst d else map fst d ++ [k].
Proof.
  induction d as [|[k0 v0] d IH]; [reflexivity|].
  simpl. destruct (str_eqb k k0) eqn:E.
  - apply str_eqb_spec in E. subst. simpl.
    destruct (list_eq_dec Z.eq_dec k0 k0); [reflexivity|congruence].
  - simpl. rewrite IH.
    destruct (list_eq_dec Z.eq_dec k0 k) as [Heq|Hne].
    + subst. now rewrite str_eqb_refl in E.
    + destruct (in_dec (list_eq_dec Z.eq_dec) k (map fst d)); reflexivity.
Qed.

Lemma dict_set_nodup (k v : pystr) (d : pydict) :
  NoDup (map fst d) -> NoDup (map fst (dict_set k v d)).
Proof.
  intros H. rewrite dict_set_keys.
  destruct (in_dec (list_eq_dec Z.eq_dec) k (map fst d)) as [Hin|Hout]; [exact H|].
  apply NoDup_app; [exact H|constructor; [intros []|constructor]|].
  intros x Hx [Hy|[]]. subst. contradiction.
Qed.

Lemma dict_set_in_keys (x k v : pystr) (d : pydict) :
  In x (map fst (dict_set k v d)) <-> k = x \/ In x (map fst d).
Proof.
  rewrite dict_set_keys.
  destruct (in_dec (list_eq_dec Z.eq_dec) k (map fst d)) as [Hin|Hout].
  - split; [tauto|]. intros [<-|H]; assumption.
  - rewrite in_app_iff. simpl. tauto.
Qed.

(** X4: the mapping built by the parser has no duplicate keys, and its keys
    are exactly the keys of the valid lines of the file. *)
Theorem parse_keys (ls : list pystr) :
  NoDup (map fst (parse_data ls []))
  /\ forall k, In k (map fst (parse_data ls [])) <-> In k (map fst (line_pairs ls)).
Proof.
  rewrite parse_data_fold.
  assert (Hgen : forall ps (d : pydict), NoDup (map fst d) ->
            NoDup (map fst (fold_left (fun acc kv => dict_set (fst kv) (snd kv) acc) ps d))
            /\ forall k, In k (map fst (fold_left (fun acc kv => dict_set (fst kv) (snd kv) acc) ps d))
                         <-> In k (map fst ps) \/ In k (map fst d)).
  { induction ps as [|[k0 v0] ps IH]; intros d Hd; simpl.
    - split; [exact Hd|tauto].
    - destruct (IH (dict_set k0 v0 d) (dict_set_nodup k0 v0 d Hd)) as [H1 H2].
      split; [exact H1|]. intros k. rewrite H2, dict_set_in_keys. tauto. }
  destruct (Hgen (line_pairs ls) [] (NoDup_nil _)) as [H1 H2].
  split; [exact H1|]. intros k. rewrite H2. simpl. tauto.
Qed.

Lemma lstrip_suffix (s : pystr) : exists p, s = p ++ lstrip s.
Proof.
  induction s as [|c t [p Hp]]; [now exists []|].
  simpl. destruct (py_isspace c).
  - exists (c :: p). simpl. now rewrite <- Hp.
  - now exists [].
Qed.

Lemma lstrip_head (s : pystr) (c : Z) (t : pystr) :
  lstrip s = c :: t -> py_isspace c = false.
Proof.
  induction s as [|x s IH]; simpl; [discriminate|].
  destruct (py_isspace x) eqn:Hx; [exact IH|]. intros H. now inversion H; subst.
Qed.

Lemma py_strip_in (x : Z) (s : pystr) : In x (py_strip s) -> In x s.
Proof.
  unfold py_strip, rstrip. intros H. apply in_rev in H.
  destruct (lstrip_suffix (rev (lstrip s))) as [p Hp].
  assert (H1 : In x (rev (lstrip s))) by (rewrite Hp; apply in_or_app; now right).
  apply in_rev in H1.
  destruct (lstrip_suffix s) as [q Hq]. rewrite Hq. apply in_or_app. now right.
Qed.

Lemma py_strip_ends (s : pystr) :
  (forall c t, py_strip s = c :: t -> py_isspace c = false)
  /\ (py_strip s <> [] -> py_isspace (last (py_strip s) 0) = false).
Proof.
  unfold py_strip, rstrip. split.
  - intros c t H.
    destruct (lstrip_suffix (rev (lstrip s))) as [p Hp].
    assert (Hu : lstrip s = rev (lstrip (rev (lstrip s))) ++ rev p).
    { transitivity (rev (rev (lstrip s))); [symmetry; apply rev_involutive|].
      rewrite Hp at 1. apply rev_app_distr. }
    rewrite H in Hu. simpl in Hu. now apply lstrip_head in Hu.
  - intros Hne. destruct (lstrip (rev (lstrip s))) as [|c t] eqn:E; [contradiction|].
    simpl. rewrite last_last. now apply lstrip_head in E.
Qed.

Lemma split_eq_fst (s : pystr) : ~ In 61 (fst (split_eq s)).
Proof.
  induction s as [|c t IH]; simpl; [tauto|].
  destruct (Z.eqb_spec c 61) as [E|E]; [simpl; tauto|].
  destruct (split_eq t) as [k v]. simpl in *. intros [H|H]; [lia|tauto].
Qed.

Lemma split_eq_spec (s : pystr) :
  contains_eq s = true -> s = fst (split_eq s) ++ 61 :: snd (split_eq s).
Proof.
  induction s as [|c t IH]; [discriminate|].
  intros H. unfold contains_eq in H. cbn [existsb] in H. cbn [split_eq].
  destruct (Z.eqb_spec c 61) as [->|E]; [reflexivity|].
  rewrite (proj2 (Z.eqb_neq 61 c)) in H by lia. simpl in H.
  specialize (IH H). destruct (split_eq t) as [k v]. simpl in *. now rewrite <- IH.
Qed.

(** X5: every key the parser produces contains no ["="] and has no leading
    or trailing whitespace; the trimmed line is the key's text, the first
    ["="], then the text the value comes from, so any further ["="] of the
    line goes into the value. *)
Theorem parse_key_shape (raw k v : pystr) (H : classify_line raw = LPair k v) :
  ~ In 61 k
  /\ (forall c t, k = c :: t -> py_isspace c = false)
  /\ (k <> [] -> py_isspace (last k 0) = false)
  /\ exists before after, py_strip raw = before ++ 61 :: after /\ ~ In 61 before
       /\ k = py_strip before /\ v = strip_quotes (py_strip after).
Proof.
  unfold classify_line in H.
  destruct (match py_strip raw with [] => true | _ => false end
            || startswith_hash (py_strip raw)); [discriminate|].
  destruct (contains_eq (py_strip raw)) eqn:Hce; [|discriminate].
  simpl in H.
  pose proof (split_eq_fst (py_strip raw)) as Hf.
  pose proof (split_eq_spec (py_strip raw) Hce) as Hs.
  destruct (split_eq (py_strip raw)) as [key val]. inversion H; subst. simpl in Hf, Hs.
  split; [intros Hin; apply Hf; now apply py_strip_in in Hin|].
  split; [apply py_strip_ends|split; [apply py_strip_ends|]].
  exists key, val. auto.
Qed.

Lemma parse_key_shape_witness :
  ~ In 61 (str_of "A").
Proof.
  exact (proj1 (parse_key_shape (str_of " A = b=c ") (str_of "A") (str_of "b=c") eq_refl)).
Defined.

(** ** Sanitizer: bounds and stability *)

Lemma safe_filename_safe_chars (isalnum : Z -> bool) (Hascii : ascii_agrees isalnum)
    (s : option pystr) (maxlen : Z) :
  safe_filename isalnum s maxlen <> []
  /\ Forall (safe_char isalnum) (safe_filename isalnum s maxlen).
Proof.
  unfold safe_char. rewrite safe_filename_collapsed.
  destruct (py_slice_to_prefix (collapsed isalnum s) maxlen) as [n Hn]. rewrite Hn.
  assert (Hall : Forall (fun c => py_isspace c = false
                          /\ (py_isword isalnum c || (c =? 45)) = true)
                   (firstn n (collapsed isalnum s))).
  { apply Forall_firstn. unfold collapsed. rewrite sub_ws_collapse.
    apply collapse_runs_forall, remove_unsafe_forall. }
  destruct (firstn n (collapsed isalnum s)) as [|c t]; simpl.
  - split; [discriminate|]. now apply output_word.
  - split; [discriminate|exact Hall].
Qed.

Lemma safe_filename_length_le (isalnum : Z -> bool) (s : option pystr) (maxlen : Z) :
  0 <= maxlen ->
  (List.length (safe_filename isalnum s maxlen) <= Nat.max (Z.to_nat maxlen) 6)%nat.
Proof.
  intros Hm. rewrite safe_filename_collapsed, py_slice_to_nonneg by exact Hm.
  pose proof (firstn_le_length (Z.to_nat maxlen) (collapsed isalnum s)) as Hl.
  destruct (firstn (Z.to_nat maxlen) (collapsed isalnum s)) as [|c t]; simpl in *; lia.
Qed.

(** X6: for a non-negative maximum length, the sanitized name has at most
    that many characters, except for the fallback ["output"] (6 characters). *)
Theorem safe_filename_length_bound (isalnum : Z -> bool) (s : option pystr) (maxlen : Z)
    (Hm : 0 <= maxlen) :
  (List.length (safe_filename isalnum s maxlen) <= Nat.max (Z.to_nat maxlen) 6)%nat
  /\ (6 <= maxlen -> Z.of_nat (List.length (safe_filename isalnum s maxlen)) <= maxlen).
Proof.
  pose proof (safe_filename_length_le isalnum s maxlen Hm) as H.
  split; [exact H|]. intros H6. lia.
Qed.

Lemma safe_filename_length_bound_witness :
  (List.length (safe_filename ascii_isalnum (Some (str_of "abcdefgh")) 3) <= 6)%nat.
Proof.
  exact (proj1 (safe_filename_length_bound ascii_isalnum (Some (str_of "abcdefgh")) 3
                  ltac:(lia))).
Defined.

Lemma lstrip_nospace (s : pystr) :
  Forall (fun c => py_isspace c = false) s -> lstrip s = s.
Proof. intros H. destruct H as [|c t Hc _]; [reflexivity|]. simpl. now rewrite Hc. Qed.

Lemma py_strip_nospace (s : pystr) :
  Forall (fun c => py_isspace c = false) s -> py_strip s = s.
Proof.
  intros H. unfold py_strip, rstrip. rewrite (lstrip_nospace s H).
  rewrite (lstrip_nospace (rev s)) by (now apply Forall_rev). apply rev_involutive.
Qed.

Lemma filter_all_true {A} (f : A -> bool) (l : list A) :
  Forall (fun x => f x = true) l -> filter f l = l.
Proof. induction 1 as [|x t Hx _ IH]; simpl; [reflexivity|]. now rewrite Hx, IH. Qed.

Lemma collapse_runs_nospace (s : pystr) :
  Forall (fun c => py_isspace c = false) s -> collapse_runs false s = s.
Proof. induction 1 as [|c t Hc _ IH]; simpl; [reflexivity|]. now rewrite Hc, IH. Qed.

(** X7: sanitizing is stable: for a maximum length of at least 6, sanitizing
    an already sanitized name returns it unchanged. *)
Theorem safe_filename_idempotent (isalnum : Z -> bool) (Hascii : ascii_agrees isalnum)
    (s : option pystr) (maxlen : Z) (Hm : 6 <= maxlen) :
  safe_filename isalnum (Some (safe_filename isalnum s maxlen)) maxlen
  = safe_filename isalnum s maxlen.
Proof.
  destruct (safe_filename_safe_chars isalnum Hascii s maxlen) as [Hne Hall].
  pose proof (safe_filename_length_le isalnum s maxlen ltac:(lia)) as Hlen.
  set (r := safe_filename isalnum s maxlen) in *.
  assert (Hsp : Forall (fun c => py_isspace c = false) r)
    by (eapply Forall_impl; [|exact Hall]; intros c [H _]; exact H).
  unfold safe_filename at 1.
  rewrite py_strip_nospace by exact Hsp.
  assert (Hrm : remove_unsafe isalnum r = r).
  { apply filter_all_true. eapply Forall_impl; [|exact Hall].
    intros c [H1 H2]. rewrite H1, orb_false_r. exact H2. }
  rewrite Hrm, sub_ws_collapse, collapse_runs_nospace by exact Hsp.
  rewrite py_slice_to_nonneg by lia. rewrite firstn_all2 by lia.
  destruct r; [contradiction|reflexivity].
Qed.

Lemma safe_filename_idempotent_witness :
  safe_filename ascii_isalnum (Some (safe_filename ascii_isalnum (Some (str_of " a b! ")) 120)) 120
  = safe_filename ascii_isalnum (Some (str_of " a b! ")) 120.
Proof.
  exact (safe_filename_idempotent ascii_isalnum (fun c _ => eq_refl) _ 120 ltac:(lia)).
Defined.

(** ** Output name *)

(** X8: without an explicit name, the output name is a non-empty base of
    word characters and hyphens followed by [.docx]: in particular it never
    contains a path separator ["/"], so the document is written directly
    inside the output directory. *)
Theorem auto_name_shape (isalnum : Z -> bool) (Hascii : ascii_agrees isalnum) (ctx : pydict) :
  exists base, out_name isalnum None ctx = base ++ str_of ".docx"
    /\ base <> [] /\ Forall (safe_char isalnum) base
    /\ ~ In 47 (out_name isalnum None ctx).
Proof.
  assert (Hbase : exists base, out_name isalnum None ctx = base ++ str_of ".docx"
                    /\ base <> [] /\ Forall (safe_char isalnum) base).
  { unfold out_name. simpl py_truthy. cbv beta iota.
    destruct (py_truthy (candidate ctx)).
    - eexists. split; [reflexivity|]. apply safe_filename_safe_chars, Hascii.
    - eexists. split; [reflexivity|]. split; [discriminate|].
      unfold safe_char, py_isword. cbn.
      repeat (constructor; [rewrite Hascii by lia; split; reflexivity|]). constructor. }
  destruct Hbase as [base [Heq [Hne Hall]]]. exists base.
  split; [exact Heq|split; [exact Hne|split; [exact Hall|]]].
  rewrite Heq. intros Hin. apply in_app_or in Hin as [Hin|Hin].
  - rewrite Forall_forall in Hall. destruct (Hall 47 Hin) as [_ H].
    unfold py_isword in H. rewrite Hascii in H by lia. discriminate.
  - simpl in Hin. intuition discriminate.
Qed.

Lemma auto_name_shape_witness :
  ~ In 47 (out_name ascii_isalnum None [(str_of "FIRSTNAME", str_of "../etc/x")]).
Proof.
  destruct (auto_name_shape ascii_isalnum (fun c _ => eq_refl)
              [(str_of "FIRSTNAME", str_of "../etc/x")]) as [b [_ [_ [_ H]]]].
  exact H.
Defined.

(** ** [main] *)

Lemma last_cons_ne {A} (x : A) (l : list A) (d : A) :
  l <> [] -> last (x :: l) d = last l d.
Proof. destruct l; [contradiction|reflexivity]. Qed.

Lemma last_app_ne {A} (l1 l2 : list A) (d : A) :
  l2 <> [] -> last (l1 ++ l2) d = last l2 d.
Proof.
  intros H. induction l1 as [|x l1 IH]; [reflexivity|].
  simpl app. rewrite last_cons_ne; [exact IH|].
  intros Hx. apply app_eq_nil in Hx as [_ Hx]. contradiction.
Qed.

Ltac list_norm :=
  repeat (rewrite <- app_assoc || rewrite app_nil_r || rewrite <- app_comm_cons);
  simpl; reflexivity.

Lemma main_eq (isalnum : Z -> bool) (e : env) (a : args) :
  main isalnum e a =
  if negb (mkdir_ok e) then ([EMkdir (arg_outdir a)], Raise OSError)
  else if negb (tpl_exists e) then ([EMkdir (arg_outdir a); EStderr MTemplateNotFound], Exit 2)
  else match kv_src e with
  | KVMissing => ([EMkdir (arg_outdir a); EOpenKV; EStderr MKVError], Exit 3)
  | KVFile text true =>
      (EMkdir (arg_outdir a) :: EOpenKV :: parse_warnings 1 (file_lines text)
         ++ [EStderr MKVError], Exit 3)
  | KVFile text false =>
      let ctx := parse_data (file_lines text) [] in
      let out := (arg_outdir a, out_name isalnum (arg_name a) ctx) in
      (EMkdir (arg_outdir a) :: EOpenKV :: parse_warnings 1 (file_lines text)
         ++ (match ctx with [] => [EStderr MNoPairs] | _ => [] end)
         ++ ERender out
         :: (if render_ok e ctx out then [EStdout (MGenerated out)] else [EStderr MGenError]),
       if render_ok e ctx out then Ok tt else Exit 4)
  end.
Proof.
  destruct e as [mk tpl kv r]. simpl.
  destruct mk; [|reflexivity]. destruct tpl; [|reflexivity].
  destruct kv as [|text err]; [reflexivity|].
  unfold main, parse_kv_file. simpl. rewrite parse_lines_eq. simpl.
  destruct err.
  - simpl. list_norm.
  - simpl.
    destruct (parse_data (file_lines text) []) as [|p ps];
    unfold generate_doc; simpl;
    destruct (r _ _); simpl; list_norm.
Qed.

(** X9: the process exits with status 0 exactly when the output directory
    is created, the template exists, the KV file is read without error and
    the renderer succeeds on the parsed context and the chosen output path;
    the run then ends by reporting that path on standard output. *)
Theorem main_success (isalnum : Z -> bool) (e : env) (a : args) :
  exit_code isalnum e a = 0
  <-> mkdir_ok e = true /\ tpl_exists e = true
      /\ exists text, kv_src e = KVFile text false
         /\ let ctx := parse_data (file_lines text) [] in
            render_ok e ctx (arg_outdir a, out_name isalnum (arg_name a) ctx) = true
            /\ exists pre, fst (main isalnum e a)
               = pre ++ [EStdout (MGenerated (arg_outdir a, out_name isalnum (arg_name a) ctx))].
Proof.
  unfold exit_code. rewrite main_eq.
  destruct (mkdir_ok e); [|split; [discriminate|intros [H _]; discriminate]].
  destruct (tpl_exists e); [|split; [discriminate|intros [_ [H _]]; discriminate]].
  destruct (kv_src e) as [|text err].
  - split; [discriminate|]. intros [_ [_ [t [H _]]]]. discriminate.
  - destruct err.
    + split; [discriminate|]. intros [_ [_ [t [H _]]]]. discriminate.
    + cbv zeta. destruct (render_ok e _ _) eqn:Hr.
      * split; [|reflexivity]. intros _. split; [reflexivity|]. split; [reflexivity|].
        exists text. split; [reflexivity|]. split; [exact Hr|].
        exists (EMkdir (arg_outdir a) :: EOpenKV :: parse_warnings 1 (file_lines text)
                 ++ (match parse_data (file_lines text) [] with
                     | [] => [EStderr MNoPairs] | _ => [] end)
                 ++ [ERender (arg_outdir a,
                              out_name isalnum (arg_name a) (parse_data (file_lines text) []))]).
        simpl. rewrite <- !app_assoc. reflexivity.
      * split; [discriminate|]. intros [_ [_ [t [Ht [H _]]]]].
        inversion Ht; subst. congruence.
Qed.

Lemma parse_warnings_only (n : nat) (ls : list pystr) (x : event) :
  In x (parse_warnings n ls) -> exists k l, x = EStderr (MWarnInvalid k l).
Proof.
  revert n. induction ls as [|raw ls IH]; intros n; simpl; [tauto|].
  destruct (classify_line raw); [apply IH| |apply IH].
  intros [H|H]; [eauto|exact (IH _ H)].
Qed.

Ltac no_warning :=
  let H := fresh in
  intros H; apply parse_warnings_only in H as [? [? H]]; discriminate H.

(** X10: the output directory is created first, on every run; the renderer
    is invoked on path [p] exactly when the directory was created, the
    template exists, the KV file was read without error and [p] is the
    output directory joined with the chosen output name. *)
Theorem main_render_call (isalnum : Z -> bool) (e : env) (a : args) (p : pystr * pystr) :
  (exists rest, fst (main isalnum e a) = EMkdir (arg_outdir a) :: rest)
  /\ (In (ERender p) (fst (main isalnum e a))
      <-> mkdir_ok e = true /\ tpl_exists e = true
          /\ exists text, kv_src e = KVFile text false
             /\ p = (arg_outdir a, out_name isalnum (arg_name a) (parse_data (file_lines text) []))).
Proof.
  rewrite main_eq.
  destruct (mkdir_ok e); [|split; [eexists; reflexivity|]].
  2: { simpl. split; [intros [H|[]]; discriminate|intros [H _]; discriminate]. }
  destruct (tpl_exists e); [|split; [eexists; reflexivity|]].
  2: { simpl. split; [intuition discriminate|intros [_ [H _]]; discriminate]. }
  destruct (kv_src e) as [|text [|]]; (split; [eexists; reflexivity|]); simpl.
  - split; [intuition discriminate|]. intros [_ [_ [t [H _]]]]. discriminate.
  - split; [|intros [_ [_ [t [H _]]]]; discriminate].
    intros [H|[H|H]]; [discriminate|discriminate|].
    apply in_app_or in H as [H|[H|[]]]; [|discriminate]. revert H. no_warning.
  - split.
    + intros [H|[H|H]]; [discriminate|discriminate|].
      apply in_app_or in H as [H|H]; [revert H; no_warning|].
      apply in_app_or in H as [H|H].
      { destruct (parse_data (file_lines text) []); simpl in H;
          [destruct H as [H|[]]; discriminate|contradiction]. }
      destruct H as [H|H].
      { inversion H; subst. split; [reflexivity|split; [reflexivity|]].
        now exists text. }
      destruct (render_ok e _ _); destruct H as [H|[]]; discriminate.
    + intros [_ [_ [t [Ht ->]]]]. inversion Ht; subst.
      right. right. apply in_or_app. right. apply in_or_app. right. now left.
Qed.

(** X11: a readable KV file without any pair is not an error: the warning
    about the empty mapping is emitted exactly when the parsed mapping is
    empty, and the exit status is 0 or 4 according to the renderer alone. *)
Theorem main_empty_context (isalnum : Z -> bool) (e : env) (a : args) (text : pystr)
    (Hm : mkdir_ok e = true) (Ht : tpl_exists e = true) (Hk : kv_src e = KVFile text false) :
  (In (EStderr MNoPairs) (fst (main isalnum e a)) <-> parse_data (file_lines text) [] = [])
  /\ exit_code isalnum e a
     = let ctx := parse_data (file_lines text) [] in
       if render_ok e ctx (arg_outdir a, out_name isalnum (arg_name a) ctx) then 0 else 4.
Proof.
  split.
  - rewrite main_eq, Hm, Ht, Hk. simpl.
    split.
    + intros [H|[H|H]]; [discriminate|discriminate|].
      apply in_app_or in H as [H|H]; [revert H; no_warning|].
      apply in_app_or in H as [H|H].
      { destruct (parse_data (file_lines text) []); [reflexivity|contradiction]. }
      destruct H as [H|H]; [discriminate|].
      destruct (render_ok e _ _); destruct H as [H|[]]; discriminate.
    + intros Hd. right. right. apply in_or_app. right. apply in_or_app. left.
      rewrite Hd. now left.
  - unfold exit_code. rewrite main_eq, Hm, Ht, Hk. simpl.
    destruct (render_ok e _ _); reflexivity.
Qed.

Lemma main_empty_context_witness :
  exit_code ascii_isalnum
    {| mkdir_ok := true; tpl_exists := true; kv_src := KVFile (str_of "# only a comment") false;
       render_ok := fun _ _ => true |}
    {| arg_kvfile := []; arg_template := []; arg_outdir := str_of "out"; arg_name := None |}
  = 0.
Proof.
  exact (proj2 (main_empty_context ascii_isalnum
    {| mkdir_ok := true; tpl_exists := true; kv_src := KVFile (str_of "# only a comment") false;
       render_ok := fun _ _ => true |}
    {| arg_kvfile := []; arg_template := []; arg_outdir := str_of "out"; arg_name := None |}
    (str_of "# only a comment") eq_refl eq_refl eq_refl)).
Defined.
